(** * The ESLint configuration of the JavaScript wrappers

    [wrappers/javascript/.eslintrc.js] is a CommonJS module made of a single
    statement: it assigns an object literal to [module.exports].  The only
    free variable of the literal is [__dirname], which Node's module wrapper
    passes to the module body.

    The development has three parts: the JavaScript values the literal is
    built from ([Js]), the module itself ([Eslintrc]), and the properties of
    the exported configuration. *)

From Stdlib Require Import String List Bool ZArith Permutation.
Import ListNotations.
Open Scope string_scope.
Open Scope list_scope.

(** ** JavaScript values *)

Module Js.

(** The values an object literal can hold.  Objects keep their properties
    in insertion order, as JavaScript does for string keys. *)
Unset Elimination Schemes.

Inductive value : Type :=
| VUndefined : value
| VStr : string -> value
| VBool : bool -> value
| VNum : Z -> value
| VArr : list value -> value
| VObj : list (string * value) -> value
| VFun : string -> value.

Set Elimination Schemes.

(** Induction over value trees: the elements of an array and the property
    values of an object are covered by the induction hypothesis. *)
Definition value_ind (P : value -> Prop)
  (f_undefined : P VUndefined)
  (f_str : forall s, P (VStr s))
  (f_bool : forall b, P (VBool b))
  (f_num : forall n, P (VNum n))
  (f_arr : forall l, Forall P l -> P (VArr l))
  (f_obj : forall o, Forall (fun kv => P (snd kv)) o -> P (VObj o))
  (f_fun : forall f, P (VFun f)) : forall v, P v :=
  fix go (v : value) : P v :=
    match v with
    | VUndefined => f_undefined
    | VStr s => f_str s
    | VBool b => f_bool b
    | VNum n => f_num n
    | VArr l =>
        f_arr l ((fix elems (l : list value) : Forall P l :=
                    match l with
                    | [] => Forall_nil _
                    | x :: l' => Forall_cons x (go x) (elems l')
                    end) l)
    | VObj o =>
        f_obj o ((fix props (o : list (string * value))
                    : Forall (fun kv => P (snd kv)) o :=
                    match o with
                    | [] => Forall_nil _
                    | kv :: o' => Forall_cons kv (go (snd kv)) (props o')
                    end) o)
    | VFun f => f_fun f
    end.

Definition object := list (string * value).

(** [o[k]]: the value of an own property, [None] when there is none. *)
Fixpoint get (k : string) (o : object) : option value :=
  match o with
  | [] => None
  | (k', v) :: o' => if String.eqb k k' then Some v else get k o'
  end.

(** [o[k] = v]: an existing property keeps its place, a new one goes last. *)
Fixpoint set (k : string) (v : value) (o : object) : object :=
  match o with
  | [] => [(k, v)]
  | (k', v') :: o' =>
      if String.eqb k k' then (k, v) :: o' else (k', v') :: set k v o'
  end.

(** An object literal [{ k1: v1, ..., kn: vn }] defines its properties one
    after the other, from left to right, on a fresh object. *)
Definition literal (props : list (string * value)) : value :=
  VObj (fold_left (fun o kv => set (fst kv) (snd kv) o) props []).

Definition keys (o : object) : list string := map fst o.

(** Property access on a value: only objects have own properties here. *)
Definition field (k : string) (v : value) : option value :=
  match v with
  | VObj o => get k o
  | _ => None
  end.

(** Chained property access [v.k1.k2...]. *)
Fixpoint path (ks : list string) (v : value) : option value :=
  match ks with
  | [] => Some v
  | k :: ks' =>
      match field k v with
      | Some v' => path ks' v'
      | None => None
      end
  end.

Definition as_string (v : value) : option string :=
  match v with
  | VStr s => Some s
  | _ => None
  end.

Definition as_array (v : value) : option (list value) :=
  match v with
  | VArr l => Some l
  | _ => None
  end.

Definition as_object (v : value) : option object :=
  match v with
  | VObj o => Some o
  | _ => None
  end.

(** The elements of an array of strings; [None] when the value is not an
    array or one of its elements is not a string. *)
Fixpoint all_strings (l : list value) : option (list string) :=
  match l with
  | [] => Some []
  | v :: l' =>
      match as_string v, all_strings l' with
      | Some s, Some ss => Some (s :: ss)
      | _, _ => None
      end
  end.

Definition strings (v : value) : option (list string) :=
  match v with
  | VArr l => all_strings l
  | _ => None
  end.

(** Shapes of value trees.  [plain] admits strings, booleans, arrays and
    objects; [data] admits numbers as well.  Neither admits a function or
    [undefined]. *)
Fixpoint plain (v : value) : bool :=
  match v with
  | VStr _ | VBool _ => true
  | VArr l => forallb plain l
  | VObj o => forallb (fun kv => plain (snd kv)) o
  | VUndefined | VNum _ | VFun _ => false
  end.

Fixpoint data (v : value) : bool :=
  match v with
  | VStr _ | VBool _ | VNum _ => true
  | VArr l => forallb data l
  | VObj o => forallb (fun kv => data (snd kv)) o
  | VUndefined | VFun _ => false
  end.

(** No function value anywhere in the tree. *)
Fixpoint function_free (v : value) : bool :=
  match v with
  | VFun _ => false
  | VArr l => forallb function_free l
  | VObj o => forallb (fun kv => function_free (snd kv)) o
  | _ => true
  end.

End Js.

Import Js.

(** ** The module *)

Module Eslintrc.

(** The object literal on the right of [module.exports = ...], as a
    function of the module's [__dirname]. *)
Definition config (__dirname : string) : value :=
  literal [
    ("ignorePatterns", VArr [VStr "node_modules"; VStr "**/node_modules"; VStr "**/build"]);
    ("parser", VStr "@typescript-eslint/parser");
    ("extends", VArr [
       VStr "eslint:recommended";
       VStr "plugin:import/recommended";
       VStr "plugin:import/typescript";
       VStr "plugin:@typescript-eslint/recommended";
       VStr "plugin:@typescript-eslint/recommended-requiring-type-checking";
       VStr "plugin:prettier/recommended"
     ]);
    ("parserOptions", literal [
       ("tsconfigRootDir", VStr __dirname);
       ("project", VArr [
          VStr "./tsconfig.eslint.json";
          VStr "shared/tsconfig.json";
          VStr "react-native/tsconfig.json";
          VStr "nodejs/tsconfig.json";
          VStr "react-native-app/tsconfig.json"
        ])
     ]);
    ("settings", literal [
       ("import/extensions", VArr [VStr ".js"; VStr ".ts"; VStr ".jsx"; VStr ".tsx"]);
       ("import/parsers", literal [
          ("@typescript-eslint/parser", VArr [VStr ".ts"; VStr ".tsx"])
        ]);
       ("import/resolver", literal [
          ("typescript", literal [
             ("extensions", VArr [VStr ".js"; VStr ".jsx"; VStr ".ts"; VStr ".tsx"]);
             ("project", VArr [
                VStr "shared/tsconfig.json";
                VStr "react-native/tsconfig.json";
                VStr "nodejs/tsconfig.json";
                VStr "react-native-app/tsconfig.json"
              ]);
             ("alwaysTryTypes", VBool true)
           ]);
          ("node", literal [
             ("extensions", VArr [VStr ".js"; VStr ".jsx"; VStr ".ts"; VStr ".tsx"]);
             ("project", VArr [
                VStr "shared/tsconfig.json";
                VStr "react-native/tsconfig.json";
                VStr "nodejs/tsconfig.json";
                VStr "react-native-app/tsconfig.json"
              ])
           ])
        ])
     ]);
    ("rules", literal [
       ("@typescript-eslint/explicit-function-return-type", VStr "off");
       ("@typescript-eslint/explicit-module-boundary-types", VStr "off");
       ("@typescript-eslint/no-use-before-define",
         VArr [VStr "error";
               literal [("functions", VBool false); ("classes", VBool false); ("variables", VBool true)]]);
       ("@typescript-eslint/explicit-member-accessibility", VStr "error");
       ("no-console", VStr "error");
       ("@typescript-eslint/consistent-type-imports", VStr "error");
       ("import/no-cycle", VStr "error");
       ("import/newline-after-import", VArr [VStr "error"; literal [("count", VNum 1)]]);
       ("import/order", VArr [
          VStr "error";
          literal [
            ("groups", VArr [VStr "type"; VArr [VStr "builtin"; VStr "external"];
                             VStr "parent"; VStr "sibling"; VStr "index"]);
            ("alphabetize", literal [
               ("order", VStr "asc")
             ]);
            ("newlines-between", VStr "always")
          ]
        ]);
       ("@typescript-eslint/no-non-null-assertion", VStr "error");
       ("import/no-extraneous-dependencies", VArr [
          VStr "error";
          literal [
            ("devDependencies", VBool false)
          ]
        ])
     ]);
    ("overrides", VArr [
       literal [
         ("files", VArr [VStr ".eslintrc.js"; VStr "babel.config.js"; VStr "metro.config.js"]);
         ("env", literal [
            ("node", VBool true)
          ]);
         ("rules", literal [
            ("@typescript-eslint/no-var-requires", VStr "off");
            ("@typescript-eslint/no-unsafe-call", VStr "off");
            ("@typescript-eslint/no-unsafe-assignment", VStr "off");
            ("@typescript-eslint/no-unsafe-member-access", VStr "off")
          ])
       ]
     ])
  ].

End Eslintrc.

(** ** Loading the module *)

Module Node.

(** What the body of a CommonJS module can act on: the properties of its
    [module] object, the files on disk and what was written to the standard
    output. *)
Record world : Type := World {
  module : object;
  disk : list string;
  stdout : list string
}.

(** [module.k = v]. *)
Definition assign (k : string) (v : value) (w : world) : world :=
  {| module := set k v (module w); disk := disk w; stdout := stdout w |}.

(** The module object Node hands to a module that was not evaluated yet. *)
Definition fresh (filename : string) : world :=
  {| module := [("id", VStr filename); ("exports", VObj []);
                ("filename", VStr filename); ("loaded", VBool false)];
     disk := [filename];
     stdout := [] |}.

End Node.

Import Node.

Module Loader.

(** The body of [.eslintrc.js]: its one statement,
    [module.exports = { ... }]. *)
Definition body (__dirname : string) (w : world) : world :=
  assign "exports" (Eslintrc.config __dirname) w.

(** What [require] returns for the module. *)
Definition exports (w : world) : option value := get "exports" (module w).

End Loader.

(** ** Reading the configuration *)

Definition obind {A B : Type} (x : option A) (f : A -> option B) : option B :=
  match x with
  | Some a => f a
  | None => None
  end.

Notation "x >>= f" := (obind x f) (at level 50, left associativity).

Module Eslint.

Inductive severity : Type := Off | Warn | Error.

(** A severity is written ["off"], ["warn"] or ["error"], or 0, 1 or 2. *)
Definition level (v : value) : option severity :=
  match v with
  | VStr s =>
      if String.eqb s "off" then Some Off
      else if String.eqb s "warn" then Some Warn
      else if String.eqb s "error" then Some Error
      else None
  | VNum n =>
      if Z.eqb n 0 then Some Off
      else if Z.eqb n 1 then Some Warn
      else if Z.eqb n 2 then Some Error
      else None
  | _ => None
  end.

(** A rule entry is a severity, or an array whose first element is the
    severity and whose other elements are the options of the rule. *)
Definition severity_of (entry : value) : option severity :=
  match entry with
  | VArr [] => None
  | VArr (v :: _) => level v
  | v => level v
  end.

Definition severity_eqb (a b : severity) : bool :=
  match a, b with
  | Off, Off | Warn, Warn | Error, Error => true
  | _, _ => false
  end.

(** The fields of a configuration object, and of an override block. *)
Section Fields.

Variable c : value.

Definition ignorePatterns : option (list string) :=
  field "ignorePatterns" c >>= strings.

Definition parser : option string :=
  field "parser" c >>= as_string.

Definition extends : option (list string) :=
  field "extends" c >>= strings.

Definition tsconfigRootDir : option value :=
  path ["parserOptions"; "tsconfigRootDir"] c.

Definition project : option (list string) :=
  path ["parserOptions"; "project"] c >>= strings.

Definition import_extensions : option (list string) :=
  path ["settings"; "import/extensions"] c >>= strings.

Definition import_parsers : option object :=
  path ["settings"; "import/parsers"] c >>= as_object.

Definition resolvers : option object :=
  path ["settings"; "import/resolver"] c >>= as_object.

Definition resolver_extensions (name : string) : option (list string) :=
  path ["settings"; "import/resolver"; name; "extensions"] c >>= strings.

Definition resolver_project (name : string) : option (list string) :=
  path ["settings"; "import/resolver"; name; "project"] c >>= strings.

Definition rules : option object :=
  field "rules" c >>= as_object.

Definition overrides : option (list value) :=
  field "overrides" c >>= as_array.

Definition files : option (list string) :=
  field "files" c >>= strings.

End Fields.

(** The rule entries of a list of override blocks; a block without a
    [rules] object contributes none. *)
Definition block_rules (blocks : list value) : object :=
  flat_map (fun b => match rules b with Some rs => rs | None => [] end) blocks.

(** Every rule entry of a configuration: its own and those of its override
    blocks. *)
Definition all_rules (c : value) : object :=
  match rules c with Some rs => rs | None => [] end ++
  match overrides c with Some bs => block_rules bs | None => [] end.

(** An entry written as an array starts with the string ["error"]; an
    entry that is not an array satisfies this trivially. *)
Definition array_starts_with_error (entry : value) : Prop :=
  match entry with
  | VArr l => hd_error l = Some (VStr "error")
  | _ => True
  end.

End Eslint.

(** ** What evaluating the module does *)

Module Evaluation.

(** The directory the repository keeps the file in, for concrete runs. *)
Definition wrapper_dir : string := "/indy-vdr/wrappers/javascript".

Definition wrapper_file : string := "/indy-vdr/wrappers/javascript/.eslintrc.js".

(** Two evaluations of the module body with the same [__dirname], from the
    worlds [w1] and [w2]: both export the same value; that value is a tree
    of the given [shape] without function values; and the evaluation
    changes nothing but the [exports] property of [module]. *)
Definition constant_module (shape : value -> bool) (__dirname : string)
    (w1 w2 : world) : Prop :=
  Loader.exports (Loader.body __dirname w1)
    = Loader.exports (Loader.body __dirname w2) /\
  (exists v, Loader.exports (Loader.body __dirname w1) = Some v /\
             shape v = true /\ function_free v = true) /\
  (forall k, k <> "exports" ->
             get k (module (Loader.body __dirname w1)) = get k (module w1)) /\
  disk (Loader.body __dirname w1) = disk w1 /\
  stdout (Loader.body __dirname w1) = stdout w1.

End Evaluation.

(** ** Shapes of entries *)

Module Schema.

(** A rule entry ESLint accepts: a severity, or a severity followed by one
    options object. *)
Definition well_formed_entry (entry : value) : Prop :=
  match entry with
  | VArr [sev; VObj _] => Eslint.level sev <> None
  | VArr _ => False
  | v => Eslint.level v <> None
  end.

(** A path that does not start at the root of the file system. *)
Definition is_relative (p : string) : bool := negb (String.prefix "/" p).

End Schema.

(** * Properties *)

(** ** Objects and literals *)

Section ObjectFacts.

Implicit Types (k : string) (v : value) (o : object).

Lemma get_set_same k v o : get k (set k v o) = Some v.
Proof.
  induction o as [|[k' v'] o IH]; simpl.
  - now rewrite String.eqb_refl.
  - destruct (String.eqb k k') eqn:E; simpl.
    + now rewrite String.eqb_refl.
    + now rewrite E.
Qed.

Lemma get_set_other k k' v o : k' <> k -> get k' (set k v o) = get k' o.
Proof.
  intros Hne. induction o as [|[k0 v0] o IH]; simpl.
  - apply String.eqb_neq in Hne. now rewrite Hne.
  - destruct (String.eqb k k0) eqn:E; simpl.
    + apply String.eqb_eq in E; subst k0.
      apply String.eqb_neq in Hne. now rewrite Hne.
    + now rewrite IH.
Qed.

(** Defining a property the object does not have appends it. *)
Lemma set_fresh k v o : ~ In k (keys o) -> set k v o = o ++ [(k, v)].
Proof.
  induction o as [|[k' v'] o IH]; simpl; intros Hk; [reflexivity|].
  destruct (String.eqb k k') eqn:E.
  - apply String.eqb_eq in E. exfalso; apply Hk; left; now symmetry.
  - rewrite IH; [reflexivity|]. intros Hin; apply Hk; now right.
Qed.

Lemma define_all_nodup (props acc : object) :
  NoDup (keys (acc ++ props)) ->
  fold_left (fun o kv => set (fst kv) (snd kv) o) props acc
    = acc ++ props.
Proof.
  revert acc; induction props as [|[k v] props IH]; intros acc Hnd; simpl.
  - now rewrite app_nil_r.
  - assert (Hsplit : acc ++ (k, v) :: props = (acc ++ [(k, v)]) ++ props)
      by now rewrite <- app_assoc.
    rewrite set_fresh.
    + rewrite IH; [now rewrite <- app_assoc|]. now rewrite <- Hsplit.
    + unfold keys in *. rewrite map_app in Hnd; simpl in Hnd.
      apply NoDup_remove_2 in Hnd. intros Hin; apply Hnd.
      apply in_or_app; now left.
Qed.

(** A literal whose keys are pairwise distinct is the object that lists its
    properties as written. *)
Lemma literal_nodup (props : object) :
  NoDup (keys props) -> literal props = VObj props.
Proof.
  intros Hnd. unfold literal. now rewrite define_all_nodup.
Qed.

Lemma all_strings_VStr (l : list string) : all_strings (map VStr l) = Some l.
Proof.
  induction l as [|s l IH]; simpl; [reflexivity|]. now rewrite IH.
Qed.

Lemma plain_data v : plain v = true -> data v = true.
Proof.
  induction v as [| | | |l IH|o IH|] using value_ind; simpl; try easy.
  - intros H. rewrite forallb_forall in *. rewrite Forall_forall in IH. auto.
  - intros H. rewrite forallb_forall in *. rewrite Forall_forall in IH. auto.
Qed.

Lemma data_function_free v : data v = true -> function_free v = true.
Proof.
  induction v as [| | | |l IH|o IH|] using value_ind; simpl; try easy.
  - intros H. rewrite forallb_forall in *. rewrite Forall_forall in IH. auto.
  - intros H. rewrite forallb_forall in *. rewrite Forall_forall in IH. auto.
Qed.

(** A key written twice in a literal keeps its first place and its last
    value. *)
Example literal_repeated_key :
  literal [("a", VNum 1); ("b", VBool true); ("a", VStr "x")]
    = VObj [("a", VStr "x"); ("b", VBool true)].
Proof. reflexivity. Qed.

Example path_missing_property :
  path ["settings"; "import/resolver"; "webpack"] (Eslintrc.config "/repo") = None.
Proof. reflexivity. Qed.

End ObjectFacts.

(** ** The loader *)

Section LoaderFacts.

Variable __dirname : string.

Lemma body_exports (w : world) :
  Loader.exports (Loader.body __dirname w) = Some (Eslintrc.config __dirname).
Proof.
  unfold Loader.exports, Loader.body, assign; simpl. apply get_set_same.
Qed.

Lemma body_frame (w : world) (k : string) :
  k <> "exports" -> get k (module (Loader.body __dirname w)) = get k (module w).
Proof.
  intros Hk. unfold Loader.body, assign; simpl. now apply get_set_other.
Qed.

Lemma body_no_io (w : world) :
  disk (Loader.body __dirname w) = disk w /\
  stdout (Loader.body __dirname w) = stdout w.
Proof. split; reflexivity. Qed.

End LoaderFacts.

(** ** The exported configuration *)

Import Eslint.
Import Eslintrc.
Import Evaluation.

Section ListFacts.

Context {A : Type}.

(** A boolean check that holds on every element gives the property it
    decides on every element. *)
Lemma Forall_of_forallb (P : A -> Prop) (f : A -> bool) (l : list A) :
  (forall x, f x = true -> P x) -> forallb f l = true -> Forall P l.
Proof.
  intros Hf Hl. apply Forall_forall. intros x Hx.
  apply Hf. rewrite forallb_forall in Hl. now apply Hl.
Qed.

End ListFacts.

Lemma severity_eqb_eq (a b : severity) : severity_eqb a b = true -> a = b.
Proof. destruct a, b; simpl; congruence. Qed.

Section Configuration.

Variable __dirname : string.

Local Abbreviation c := (config __dirname).

(** X12: the top-level literal has seven properties with distinct names,
    so the exported object lists them in the order of the source and has
    no other property. *)
Lemma config_sections :
  exists o, config __dirname = VObj o /\
    keys o = ["ignorePatterns"; "parser"; "extends"; "parserOptions";
              "settings"; "rules"; "overrides"].
Proof.
  unfold config. rewrite literal_nodup.
  - eexists; split; reflexivity.
  - unfold keys; simpl. repeat constructor; simpl; intuition discriminate.
Qed.

(** C1: the [extends] field is the list of six presets, in the order of the
    source, and its last element is ['plugin:prettier/recommended']. *)
Theorem extends_presets :
  exists presets,
    extends c = Some presets /\
    presets = ["eslint:recommended";
               "plugin:import/recommended";
               "plugin:import/typescript";
               "plugin:@typescript-eslint/recommended";
               "plugin:@typescript-eslint/recommended-requiring-type-checking";
               "plugin:prettier/recommended"] /\
    last presets "" = "plugin:prettier/recommended".
Proof.
  eexists; split; [reflexivity|]. split; reflexivity.
Qed.

(** C4: [ignorePatterns] is the list ['node_modules', '**/node_modules',
    '**/build'], which is not empty. *)
Theorem ignore_patterns :
  exists globs,
    ignorePatterns c = Some globs /\
    globs = ["node_modules"; "**/node_modules"; "**/build"] /\
    globs <> [].
Proof.
  eexists; split; [reflexivity|]. split; [reflexivity|discriminate].
Qed.

(** C5: the [parser] field is ['@typescript-eslint/parser']; it is the only
    key of [settings['import/parsers']], where its extensions are ['.ts'] and
    ['.tsx']. *)
Theorem single_parser :
  exists p parsers,
    parser c = Some p /\
    p = "@typescript-eslint/parser" /\
    import_parsers c = Some parsers /\
    keys parsers = [p] /\
    get p parsers >>= strings = Some [".ts"; ".tsx"].
Proof.
  exists "@typescript-eslint/parser".
  eexists; repeat split; reflexivity.
Qed.

(** C6: [parserOptions.project] lists the five project files of the source,
    and [parserOptions.tsconfigRootDir] is the module's [__dirname]. *)
Theorem parser_options :
  exists projects,
    project c = Some projects /\
    projects = ["./tsconfig.eslint.json";
                "shared/tsconfig.json";
                "react-native/tsconfig.json";
                "nodejs/tsconfig.json";
                "react-native-app/tsconfig.json"] /\
    length projects = 5 /\
    tsconfigRootDir c = Some (VStr __dirname).
Proof.
  eexists; split; [reflexivity|]. repeat split; reflexivity.
Qed.

(** C2: there is one override block; its [files] are ['.eslintrc.js'],
    ['babel.config.js'] and ['metro.config.js']; each of its rule entries
    has severity ['off']. *)
Theorem overrides_only_relax :
  exists block relaxed,
    overrides c = Some [block] /\
    files block = Some [".eslintrc.js"; "babel.config.js"; "metro.config.js"] /\
    rules block = Some relaxed /\
    relaxed <> [] /\
    Forall (fun kv => severity_of (snd kv) = Some Off) relaxed.
Proof.
  do 2 eexists. split; [reflexivity|]. split; [reflexivity|].
  split; [reflexivity|]. split; [discriminate|].
  apply Forall_of_forallb
    with (f := fun kv => match severity_of (snd kv) with
                         | Some s => severity_eqb s Off
                         | None => false
                         end).
  - intros [k v]; simpl. destruct (severity_of v) as [s|]; [|discriminate].
    intros H. now rewrite (severity_eqb_eq _ _ H).
  - reflexivity.
Qed.

(** C9: each entry of the top-level [rules] has severity ['error'] or
    ['off'], an entry written as an array starts with ['error'], and no
    entry of the configuration, override block included, has severity
    ['warn']. *)
Theorem rule_severities :
  exists entries,
    rules c = Some entries /\
    length entries = 11 /\
    Forall (fun kv => severity_of (snd kv) = Some Error \/
                      severity_of (snd kv) = Some Off) entries /\
    Forall (fun kv => array_starts_with_error (snd kv)) entries /\
    length (all_rules c) = 15 /\
    Forall (fun kv => severity_of (snd kv) <> Some Warn) (all_rules c).
Proof.
  eexists. split; [reflexivity|]. split; [reflexivity|].
  split; [|split; [|split; [reflexivity|]]].
  - apply Forall_of_forallb
      with (f := fun kv => match severity_of (snd kv) with
                           | Some s => severity_eqb s Error || severity_eqb s Off
                           | None => false
                           end).
    + intros [k v]; simpl. destruct (severity_of v) as [s|]; [|discriminate].
      intros H. apply orb_true_iff in H as [H|H];
        rewrite (severity_eqb_eq _ _ H); auto.
    + reflexivity.
  - repeat constructor.
  - apply Forall_of_forallb
      with (f := fun kv => match severity_of (snd kv) with
                           | Some s => negb (severity_eqb s Warn)
                           | None => true
                           end).
    + intros [k v]; simpl. destruct (severity_of v) as [[]|]; simpl; congruence.
    + reflexivity.
Qed.

(** C10: the two resolvers have the same [project] list, the four paths of
    the source in their order, and the same [extensions] list; each of
    these paths is also in [parserOptions.project]. *)
Theorem resolvers_agree :
  exists projects extensions parser_projects,
    resolver_project c "typescript" = Some projects /\
    resolver_project c "node" = Some projects /\
    projects = ["shared/tsconfig.json";
                "react-native/tsconfig.json";
                "nodejs/tsconfig.json";
                "react-native-app/tsconfig.json"] /\
    resolver_extensions c "typescript" = Some extensions /\
    resolver_extensions c "node" = Some extensions /\
    project c = Some parser_projects /\
    Forall (fun p => In p parser_projects) projects.
Proof.
  do 3 eexists. repeat (split; [reflexivity|]).
  repeat constructor; simpl; tauto.
Qed.

(** C3, as the code has it: [settings['import/extensions']] has the same
    elements as the [extensions] list of the two resolvers, in another
    order; the two resolvers agree on the order. *)
Theorem extensions_same_elements :
  exists extensions resolved,
    import_extensions c = Some extensions /\
    extensions = [".js"; ".ts"; ".jsx"; ".tsx"] /\
    resolver_extensions c "typescript" = Some resolved /\
    resolver_extensions c "node" = Some resolved /\
    resolved = [".js"; ".jsx"; ".ts"; ".tsx"] /\
    Permutation extensions resolved.
Proof.
  do 2 eexists. repeat (split; [reflexivity|]).
  apply perm_skip, perm_swap.
Qed.

(** The one number of the configuration: the [count] option of
    [import/newline-after-import]. *)
Lemma newline_after_import_entry :
  field "rules" c >>= field "import/newline-after-import"
    = Some (VArr [VStr "error"; VObj [("count", VNum 1)]]).
Proof. reflexivity. Qed.

(** C7, as the code has it: two evaluations with the same [__dirname]
    export the same value, a tree of strings, booleans, numbers, arrays and
    objects without function values, and change nothing but
    [module.exports]. *)
Theorem evaluation_is_constant (w1 w2 : world) :
  constant_module data __dirname w1 w2.
Proof.
  unfold constant_module. rewrite !body_exports.
  split; [reflexivity|]. split.
  - exists c. split; [reflexivity|].
    assert (Hdata : data c = true) by reflexivity.
    split; [exact Hdata|]. now apply data_function_free.
  - split; [intros k Hk; now apply body_frame|]. apply body_no_io.
Qed.

End Configuration.

(** C3, as stated, fails: the extension list of [settings['import/extensions']]
    differs from the one of the resolvers, ['.ts'] and ['.jsx'] being
    swapped. *)
Lemma extension_order_differs :
  ~ (import_extensions (config wrapper_dir)
       = resolver_extensions (config wrapper_dir) "typescript" /\
     import_extensions (config wrapper_dir)
       = resolver_extensions (config wrapper_dir) "node").
Proof.
  intros [H _]. vm_compute in H. discriminate H.
Qed.

(** C7, as stated, fails: the exported tree holds a number, so it is not
    made of strings, booleans, arrays and objects only. *)
Lemma exported_tree_not_plain :
  ~ constant_module plain wrapper_dir (fresh wrapper_file) (fresh wrapper_file).
Proof.
  intros (_ & (v & Hv & Hplain & _) & _).
  rewrite body_exports in Hv. injection Hv as <-.
  vm_compute in Hplain. discriminate Hplain.
Qed.

(** ** Further facts on objects and assignment *)

Section AssignmentFacts.

Implicit Types (k : string) (v : value) (o : object).

(** A second assignment to a property replaces the first. *)
Lemma set_set k v v' o : set k v' (set k v o) = set k v' o.
Proof.
  induction o as [|[k0 v0] o IH]; simpl.
  - now rewrite String.eqb_refl.
  - destruct (String.eqb k k0) eqn:E; simpl.
    + now rewrite String.eqb_refl.
    + now rewrite E, IH.
Qed.

(** An assignment keeps the names and the order of the properties, and adds
    the name at the end when it is new. *)
Lemma keys_set k v o :
  keys (set k v o)
    = if existsb (String.eqb k) (keys o) then keys o else keys o ++ [k].
Proof.
  unfold keys.
  induction o as [|[k0 v0] o IH]; simpl; [reflexivity|].
  destruct (String.eqb k k0) eqn:E; simpl.
  - apply String.eqb_eq in E. now subst k0.
  - rewrite IH. now destruct (existsb (String.eqb k) (map fst o)).
Qed.

Lemma get_define_all k (props acc : object) :
  get k (fold_left (fun o kv => set (fst kv) (snd kv) o) props acc)
    = match get k (rev props) with
      | Some v => Some v
      | None => get k acc
      end.
Proof.
  revert acc; induction props as [|[k0 v0] props IH]; intros acc; simpl.
  - reflexivity.
  - rewrite IH. clear IH.
    assert (Hrev : get k (rev props ++ [(k0, v0)])
                   = match get k (rev props) with
                     | Some v => Some v
                     | None => if String.eqb k k0 then Some v0 else None
                     end).
    { induction (rev props) as [|[k1 v1] l IHl]; simpl; [reflexivity|].
      now destruct (String.eqb k k1). }
    rewrite Hrev. destruct (get k (rev props)); [reflexivity|].
    destruct (String.eqb k k0) eqn:E.
    + apply String.eqb_eq in E; subst k0. apply get_set_same.
    + apply get_set_other. now apply String.eqb_neq.
Qed.

(** Reading a property of a literal gives the value written last for it. *)
Lemma field_literal k (props : object) :
  field k (literal props) = get k (rev props).
Proof.
  unfold literal, field. rewrite get_define_all; simpl.
  now destruct (get k (rev props)).
Qed.

End AssignmentFacts.

(** ** Dependence on the directory *)

Section Directory.

Variables d1 d2 : string.

Lemma parser_options_literal :
  exists projects, forall d,
    field "parserOptions" (config d)
      = Some (literal [("tsconfigRootDir", VStr d); ("project", projects)]).
Proof. eexists; intros d; reflexivity. Qed.

(** X1: apart from [parserOptions], each top-level field of the exported
    configuration is the same whatever the directory. *)
Theorem config_root_independent (k : string) :
  k <> "parserOptions" -> field k (config d1) = field k (config d2).
Proof.
  intros Hk. apply String.eqb_neq in Hk.
  unfold config. rewrite !field_literal.
  cbn [rev app get]. now rewrite Hk.
Qed.

(** X2: inside [parserOptions], each field but [tsconfigRootDir] is the
    same whatever the directory. *)
Theorem parser_options_root_only (k : string) :
  k <> "tsconfigRootDir" ->
  path ["parserOptions"; k] (config d1) = path ["parserOptions"; k] (config d2).
Proof.
  intros Hk. apply String.eqb_neq in Hk.
  destruct parser_options_literal as [projects Hpo].
  cbn [path]. rewrite !Hpo, !field_literal.
  cbn [rev app get]. now rewrite Hk.
Qed.

(** X3: the exported configuration determines the directory it was
    evaluated in. *)
Theorem config_injective : config d1 = config d2 -> d1 = d2.
Proof.
  intros H.
  assert (Hroot : tsconfigRootDir (config d1) = tsconfigRootDir (config d2))
    by now rewrite H.
  change (Some (VStr d1) = Some (VStr d2)) in Hroot.
  now injection Hroot.
Qed.

End Directory.

Lemma config_root_independent_witness :
  "rules" <> "parserOptions" /\
  field "rules" (config wrapper_dir) = field "rules" (config "/tmp/checkout").
Proof.
  split; [discriminate|]. apply config_root_independent. discriminate.
Defined.

Lemma parser_options_root_only_witness :
  "project" <> "tsconfigRootDir" /\
  path ["parserOptions"; "project"] (config wrapper_dir)
    = path ["parserOptions"; "project"] (config "/tmp/checkout").
Proof.
  split; [discriminate|]. apply parser_options_root_only. discriminate.
Defined.

Lemma config_injective_witness :
  config wrapper_dir = config "/indy-vdr/wrappers/javascript" /\
  wrapper_dir = "/indy-vdr/wrappers/javascript".
Proof.
  split; [reflexivity|]. apply config_injective. reflexivity.
Defined.

(** ** Evaluating the module again *)

Section Reevaluation.

Variables d1 d2 : string.
Variable w : world.

(** X4: evaluating the body again, from another directory or the same,
    leaves the world the last evaluation alone would give; with the same
    directory twice, the body is idempotent. *)
Theorem body_overwrites :
  Loader.body d2 (Loader.body d1 w) = Loader.body d2 w.
Proof.
  unfold Loader.body, assign; simpl. now rewrite set_set.
Qed.

(** X5: the body keeps the names and the order of the properties of
    [module]; it adds [exports], at the end, only when [module] had no such
    property. *)
Theorem body_keeps_properties :
  keys (module (Loader.body d1 w))
    = if existsb (String.eqb "exports") (keys (module w))
      then keys (module w)
      else keys (module w) ++ ["exports"].
Proof.
  unfold Loader.body, assign; simpl. apply keys_set.
Qed.

End Reevaluation.

(** ** How the parts of the configuration relate *)

Section CrossChecks.

Variable __dirname : string.

Local Abbreviation c := (config __dirname).

(** X6: [parserOptions.project] is ['./tsconfig.eslint.json'] followed by
    the [project] list of the resolvers. *)
Theorem parser_projects_extend_resolver :
  exists resolved,
    resolver_project c "typescript" = Some resolved /\
    resolver_project c "node" = Some resolved /\
    project c = Some ("./tsconfig.eslint.json" :: resolved).
Proof.
  eexists. repeat split; reflexivity.
Qed.

(** X7: there are two resolvers, [typescript] and [node], and the
    [typescript] one is the [node] one with [alwaysTryTypes] set to true. *)
Theorem typescript_resolver_extends_node :
  exists node,
    option_map keys (resolvers c) = Some ["typescript"; "node"] /\
    path ["settings"; "import/resolver"; "node"] c = Some (VObj node) /\
    get "alwaysTryTypes" node = None /\
    path ["settings"; "import/resolver"; "typescript"] c
      = Some (VObj (set "alwaysTryTypes" (VBool true) node)).
Proof.
  eexists. repeat split; reflexivity.
Qed.

(** X8: the extensions given to the parser in [settings['import/parsers']]
    are among [settings['import/extensions']] and among the extensions of
    each resolver. *)
Theorem parser_extensions_known :
  exists parsed extensions resolved,
    import_parsers c >>= get "@typescript-eslint/parser" >>= strings
      = Some parsed /\
    import_extensions c = Some extensions /\
    resolver_extensions c "typescript" = Some resolved /\
    resolver_extensions c "node" = Some resolved /\
    Forall (fun e => In e extensions /\ In e resolved) parsed.
Proof.
  do 3 eexists. repeat (split; [reflexivity|]).
  repeat constructor; simpl; tauto.
Qed.

(** X9: no rule name is configured twice, be it in the top-level [rules],
    in the override block, or once in each. *)
Theorem rules_configured_once : NoDup (keys (all_rules c)).
Proof.
  vm_compute (keys (all_rules c)).
  repeat constructor; simpl; intuition discriminate.
Qed.

(** X10: each rule entry, override block included, is a severity or a
    severity followed by one options object. *)
Theorem rule_entries_well_formed :
  Forall (fun kv => Schema.well_formed_entry (snd kv)) (all_rules c).
Proof.
  repeat constructor; simpl; discriminate.
Qed.

(** X11: each project path of the parser options and of the resolvers is
    relative, so that the only absolute path of the configuration is
    [tsconfigRootDir]. *)
Theorem project_paths_relative :
  exists projects resolved,
    project c = Some projects /\
    resolver_project c "typescript" = Some resolved /\
    resolver_project c "node" = Some resolved /\
    Forall (fun p => Schema.is_relative p = true) (projects ++ resolved).
Proof.
  do 2 eexists. repeat (split; [reflexivity|]).
  apply Forall_of_forallb with (f := Schema.is_relative); [auto|reflexivity].
Qed.

End CrossChecks.
